(** * emotion-lesson: styled buttons and the animated sign-up modal

    A shallow embedding of [src/components/Buttons.js] and
    [src/components/Modals.js].

    The two files contain Emotion style templates (CSS text with
    interpolated functions of [props.theme]), one React function
    component ([SignUpModal]) and one event handler.  The embedding keeps
    the three layers apart:

    - the style templates, as written in the source (modules [Css],
      [Buttons] and [Modals]);
    - what a style sheet means once serialised: cascade, shorthand
      expansion, the [transition] value (module [Css]);
    - the JavaScript that runs: truthiness of [props.showModal], the
      call [props.setShowModal(false)] and its failure when the callee
      is not callable (module [Modals]).

    The spring interpolation between two targets is react-spring's and is
    not part of this repository; only the target handed to [useSpring]
    is modelled. *)

From Stdlib Require Import ZArith NArith List String Ascii Bool Lia.
From stdpp Require Import base option gmap strings.
Import ListNotations.

Local Open Scope string_scope.
Local Open Scope list_scope.

Set Warnings "-register-all".

(** ** Small string utilities used to read CSS values *)

Module Str.

(** Split at every occurrence of [sep]; the separator is dropped. *)
Fixpoint split_on (sep : ascii) (s : string) : list string :=
  match s with
  | EmptyString => [EmptyString]
  | String c r =>
      if Ascii.eqb c sep then EmptyString :: split_on sep r
      else match split_on sep r with
           | [] => [String c EmptyString]
           | w :: ws => String c w :: ws
           end
  end.

(** Space separated tokens, empty tokens removed. *)
Definition words (s : string) : list string :=
  List.filter (fun w => negb (String.eqb w "")) (split_on " " s).

(** [strip_suffix suf s = Some p] iff [s = p ++ suf]. *)
Fixpoint strip_suffix (suf s : string) : option string :=
  if String.eqb s suf then Some EmptyString
  else match s with
       | EmptyString => None
       | String c r => option_map (String c) (strip_suffix suf r)
       end.

Definition digit_of (c : ascii) : option N :=
  let n := N_of_ascii c in
  if ((48 <=? n) && (n <=? 57))%N then Some (n - 48)%N else None.

(** A non-empty run of decimal digits. *)
Fixpoint digits_acc (s : string) (acc : N) : option N :=
  match s with
  | EmptyString => Some acc
  | String c r =>
      match digit_of c with
      | Some d => digits_acc r (acc * 10 + d)%N
      | None => None
      end
  end.

Definition parse_nat (s : string) : option N :=
  match s with
  | EmptyString => None
  | _ => digits_acc s 0%N
  end.

(** The first three fractional digits as thousandths: ["2"] is 200,
    ["25"] is 250, ["2567"] is 256. *)
Definition parse_thousandths (s : string) : option N :=
  match parse_nat s with
  | None => None
  | Some _ =>
      let pad := String.substring 0 3 (s ++ "000") in
      parse_nat pad
  end.

(** A decimal number of units, in thousandths of the unit. *)
Definition parse_decimal_milli (s : string) : option N :=
  match split_on "." s with
  | [i] => option_map (fun n => n * 1000)%N (parse_nat i)
  | [i; f] =>
      match parse_nat i, parse_thousandths f with
      | Some n, Some m => Some (n * 1000 + m)%N
      | _, _ => None
      end
  | _ => None
  end.

End Str.

(** ** JavaScript values and truthiness *)

Definition FunId := nat.

(** The values a prop can hold.  Numbers are restricted to integers: the
    source only writes the literals [0] and [1]. *)
Inductive JsValue : Type :=
| JUndefined
| JNull
| JBool (b : bool)
| JNum (z : Z)
| JStr (s : string)
| JFun (f : FunId)
| JObj (o : nat).

(** [ToBoolean], as used by the conditional operator [c ? a : b]. *)
Definition to_boolean (v : JsValue) : bool :=
  match v with
  | JUndefined | JNull => false
  | JBool b => b
  | JNum z => negb (z =? 0)%Z
  | JStr s => negb (String.eqb s "")
  | JFun _ | JObj _ => true
  end.

(** ** Style templates and what they mean *)

Module Css.

(** A theme is a JS object used as a map from role names to colour
    strings. *)
Abbreviation Theme := (gmap string string).

(** One [${...}] slot of a template, or literal text.  The only
    interpolation the source writes is [(props) => props.theme.k]. *)
Inductive Interp : Type :=
| Lit (s : string)
| ThemeProp (k : string).

Definition TDecl : Type := (string * Interp)%type.
Definition Decl : Type := (string * string)%type.

(** A template is a sequence of declarations and nested rule blocks
    such as [&:hover { ... }]. *)
Inductive Rule : Type :=
| D (property : string) (value : Interp)
| Nested (selector : string) (body : list TDecl).

(** The result of [styled.tag`...`] or [styled(Base)`...`]. *)
Record Styled : Type := mkStyled {
  base_tag : string;
  animated : bool;
  styles : list Rule
}.

(** [styled.button`css`] *)
Definition styled_tag (tag : string) (css : list Rule) : Styled :=
  {| base_tag := tag; animated := false; styles := css |}.

(** [styled(animated.div)`css`]: react-spring's animated host element. *)
Definition styled_animated (tag : string) (css : list Rule) : Styled :=
  {| base_tag := tag; animated := true; styles := css |}.

(** [styled(Base)`css`] where [Base] is itself a styled component:
    Emotion keeps the base tag and appends the new styles to the
    base's. *)
Definition styled_ext (base : Styled) (css : list Rule) : Styled :=
  {| base_tag := base_tag base;
     animated := animated base;
     styles := styles base ++ css |}.

(** *** Serialisation against a theme *)

(** Emotion calls a function interpolation with the props, prints
    [undefined] as the empty string and splices the result into the CSS
    text of the template.  The result is taken here as the value of the
    one declaration it stands in, which is what the spliced text parses
    to when the string is a single CSS value.  A string that carries
    [;], braces or a comment opener would be parsed again as CSS and is
    outside this reading: [splice_ok] below names the themes a
    component can be serialised against, and the statements about the
    declared values of a template with a theme slot assume it. *)
Definition eval_interp (theme : Theme) (i : Interp) : string :=
  match i with
  | Lit s => s
  | ThemeProp k => default "" (theme !! k)
  end.

Definition eval_decl (theme : Theme) (d : TDecl) : Decl :=
  (fst d, eval_interp theme (snd d)).

(** The serialised sheet: declarations of the component's own class,
    and the nested blocks with their selectors. *)
Record Sheet : Type := mkSheet {
  top : list Decl;
  nested : list (string * list Decl)
}.

Fixpoint serialize (theme : Theme) (rs : list Rule) : Sheet :=
  match rs with
  | [] => {| top := []; nested := [] |}
  | D p v :: rest =>
      let sh := serialize theme rest in
      {| top := (p, eval_interp theme v) :: top sh; nested := nested sh |}
  | Nested sel body :: rest =>
      let sh := serialize theme rest in
      {| top := top sh;
         nested := (sel, List.map (eval_decl theme) body) :: nested sh |}
  end.

(** *** Cascade *)

(** Pointer state of the element. *)
Record UiState : Type := { hovered : bool }.
Definition at_rest : UiState := {| hovered := false |}.
Definition on_hover : UiState := {| hovered := true |}.

Definition selector_matches (st : UiState) (sel : string) : bool :=
  String.eqb sel "&:hover" && hovered st.

(** A declaration whose value is empty does not parse and is dropped. *)
Definition well_formed (d : Decl) : bool := negb (String.eqb (snd d) "").

(** Declarations that apply in a state, weakest first: the class rule,
    then the matching nested rules (one more pseudo-class, so higher
    specificity). *)
Definition applicable (st : UiState) (sh : Sheet) : list Decl :=
  List.filter well_formed
    (top sh ++
     List.concat
       (List.map snd
          (List.filter (fun nb => selector_matches st (fst nb)) (nested sh)))).

(** *** Colours *)

Record Rgba : Type := { red : Z; green : Z; blue : Z; alpha : Z }.

Definition rgb (r g b : Z) : Rgba :=
  {| red := r; green := g; blue := b; alpha := 255 |}.

(** The CSS colour keywords the source and its documentation use, and
    the other basic ones. *)
Definition named_color (s : string) : option Rgba :=
  if String.eqb s "black" then Some (rgb 0 0 0)
  else if String.eqb s "white" then Some (rgb 255 255 255)
  else if String.eqb s "red" then Some (rgb 255 0 0)
  else if String.eqb s "lime" then Some (rgb 0 255 0)
  else if String.eqb s "blue" then Some (rgb 0 0 255)
  else if String.eqb s "yellow" then Some (rgb 255 255 0)
  else if String.eqb s "gray" then Some (rgb 128 128 128)
  else if String.eqb s "silver" then Some (rgb 192 192 192)
  else if String.eqb s "hotpink" then Some (rgb 255 105 180)
  else if String.eqb s "transparent" then
    Some {| red := 0; green := 0; blue := 0; alpha := 0 |}
  else None.

Definition is_color_token (s : string) : bool :=
  match named_color s with
  | Some _ => true
  | None => String.prefix "#" s || String.prefix "rgb" s
  end.

(** *** Theme entries that are colour values *)

Definition is_hex_digit (c : ascii) : bool :=
  let n := N_of_ascii c in
  (((48 <=? n) && (n <=? 57))
   || ((65 <=? n) && (n <=? 70))
   || ((97 <=? n) && (n <=? 102)))%N.

Fixpoint all_chars (p : ascii -> bool) (s : string) : bool :=
  match s with
  | EmptyString => true
  | String c r => p c && all_chars p r
  end.

(** [#rgb], [#rgba], [#rrggbb] or [#rrggbbaa]. *)
Definition hex_color (s : string) : bool :=
  match s with
  | String "#" r =>
      all_chars is_hex_digit r
      && existsb (Nat.eqb (String.length r)) [3; 4; 6; 8]%nat
  | _ => false
  end.

(** A colour written as a hex colour or as one of the keywords of
    [named_color]. *)
Definition color_literal (s : string) : bool :=
  hex_color s
  || match named_color s with
     | Some _ => true
     | None => false
     end.

(** An entry that can stand in a colour declaration: absent or empty (no
    declaration results), or a colour literal. *)
Definition theme_entry_ok (t : Theme) (k : string) : bool :=
  match t !! k with
  | None => true
  | Some s => String.eqb s "" || color_literal s
  end.

(** The theme keys a template interpolates. *)
Definition interp_keys (i : Interp) : list string :=
  match i with
  | Lit _ => []
  | ThemeProp k => [k]
  end.

Definition rule_keys (r : Rule) : list string :=
  match r with
  | D _ v => interp_keys v
  | Nested _ body => List.concat (List.map (fun d => interp_keys (snd d)) body)
  end.

Definition theme_keys (rs : list Rule) : list string :=
  List.concat (List.map rule_keys rs).

(** Every entry of the theme that the component's template splices in
    is a colour value.  A template without theme slots accepts every
    theme. *)
Definition splice_ok (t : Theme) (c : Styled) : bool :=
  forallb (theme_entry_ok t) (theme_keys (styles c)).

(** *** Shorthand expansion *)

Definition first_token (p : string -> bool) (dflt : string)
  (ws : list string) : string :=
  match List.find p ws with
  | Some w => w
  | None => dflt
  end.

Definition is_line_style (s : string) : bool :=
  existsb (String.eqb s)
    ["none"; "hidden"; "dotted"; "dashed"; "solid"; "double";
     "groove"; "ridge"; "inset"; "outset"].

Definition is_line_width (s : string) : bool :=
  existsb (String.eqb s) ["thin"; "medium"; "thick"]
  || match s with
     | String c _ => match Str.digit_of c with Some _ => true | None => false end
     | EmptyString => false
     end.

(** [background] and [border] reset every longhand they cover; a
    longhand that the value does not mention takes its initial value. *)
Definition expand (d : Decl) : list Decl :=
  let ws := Str.words (snd d) in
  if String.eqb (fst d) "background" then
    [("background-color", first_token is_color_token "transparent" ws);
     ("background-image", first_token (String.prefix "url(") "none" ws)]
  else if String.eqb (fst d) "border" then
    [("border-width", first_token is_line_width "medium" ws);
     ("border-style", first_token is_line_style "none" ws);
     ("border-color", first_token is_color_token "currentcolor" ws)]
  else [d].

Definition longhands (ds : list Decl) : list Decl :=
  List.concat (List.map expand ds).

(** The last declaration of a property wins. *)
Fixpoint last_wins (p : string) (ds : list Decl) : option string :=
  match ds with
  | [] => None
  | (q, v) :: rest =>
      match last_wins p rest with
      | Some w => Some w
      | None => if String.eqb q p then Some v else None
      end
  end.

(** The declared value of property [p] for a component under a theme in
    a pointer state; [None] when no rule sets it. *)
Definition computed (theme : Theme) (c : Styled) (st : UiState)
  (p : string) : option string :=
  last_wins p (longhands (applicable st (serialize theme (styles c)))).

(** *** The [transition] property *)

Record Transition : Type := {
  t_property : string;
  t_duration_ms : N;
  t_timing : string;
  t_delay_ms : N
}.

(** A CSS time, in milliseconds. *)
Definition parse_time (s : string) : option N :=
  match Str.strip_suffix "ms" s with
  | Some n => option_map (fun k => k / 1000)%N (Str.parse_decimal_milli n)
  | None =>
      match Str.strip_suffix "s" s with
      | Some n => Str.parse_decimal_milli n
      | None => None
      end
  end.

Definition is_easing (s : string) : bool :=
  existsb (String.eqb s)
    ["linear"; "ease"; "ease-in"; "ease-out"; "ease-in-out";
     "step-start"; "step-end"].

(** One comma separated item: the first time is the duration, the
    second the delay; an easing keyword is the timing function; any
    other token names the property. *)
Fixpoint parse_single (ws : list string) (times : nat) (t : Transition)
  : Transition :=
  match ws with
  | [] => t
  | w :: rest =>
      match parse_time w with
      | Some ms =>
          match times with
          | O => parse_single rest 1
                   {| t_property := t_property t; t_duration_ms := ms;
                      t_timing := t_timing t; t_delay_ms := t_delay_ms t |}
          | S _ => parse_single rest (S times)
                     {| t_property := t_property t;
                        t_duration_ms := t_duration_ms t;
                        t_timing := t_timing t; t_delay_ms := ms |}
          end
      | None =>
          if is_easing w then
            parse_single rest times
              {| t_property := t_property t;
                 t_duration_ms := t_duration_ms t;
                 t_timing := w; t_delay_ms := t_delay_ms t |}
          else
            parse_single rest times
              {| t_property := w; t_duration_ms := t_duration_ms t;
                 t_timing := t_timing t; t_delay_ms := t_delay_ms t |}
      end
  end.

Definition initial_transition : Transition :=
  {| t_property := "all"; t_duration_ms := 0;
     t_timing := "ease"; t_delay_ms := 0 |}.

Definition parse_transition (v : string) : list Transition :=
  List.map (fun item => parse_single (Str.words item) 0 initial_transition)
    (Str.split_on "," v).

(** The transitions a component declares in a pointer state. *)
Definition transitions (theme : Theme) (c : Styled) (st : UiState)
  : list Transition :=
  match computed theme c st "transition" with
  | Some v => parse_transition v
  | None => []
  end.

(** The transition that animates a change of property [p], if any. *)
Definition transition_for (theme : Theme) (c : Styled) (st : UiState)
  (p : string) : option Transition :=
  List.find
    (fun t => String.eqb (t_property t) p || String.eqb (t_property t) "all")
    (transitions theme c st).

End Css.

(** ** [src/components/Buttons.js] *)

Module Buttons.
Import Css.

Definition Button : Styled :=
  styled_tag "button"
    [ D "padding" (Lit "12px 24px");
      D "font-size" (Lit "1rem");
      D "border-radius" (Lit "2px");
      D "min-width" (Lit "100px");
      D "cursor" (Lit "pointer");
      D "font-family" (Lit "'Menlo', monospace") ].

Definition PrimaryButton : Styled :=
  styled_ext Button
    [ D "background-color" (Lit "red");
      D "border" (Lit "none");
      D "color" (Lit "white") ].

Definition SecondaryButton : Styled :=
  styled_ext Button
    [ D "background" (Lit "none");
      D "border" (Lit "1px solid black");
      D "color" (Lit "white");
      D "color" (Lit "black");
      D "transition" (Lit "background-color 0.2s linear, color 0.2s linear");
      Nested "&:hover"
        [ ("background-color", Lit "red");
          ("color", Lit "white") ] ].

(** The two visual variants the file exports on top of [Button]. *)
Inductive Variant : Type := Primary | Secondary.

Definition variant_component (v : Variant) : Styled :=
  match v with
  | Primary => PrimaryButton
  | Secondary => SecondaryButton
  end.

End Buttons.

(** ** [src/components/Modals.js] *)

Module Modals.
Import Css Buttons.

(** *** Styled parts *)

Definition ModalWrapper : Styled :=
  styled_animated "div"
    [ D "width" (Lit "800px");
      D "height" (Lit "550px");
      D "box-shadow" (Lit "0 5px 16px rgba(0, 0, 0, 0.2)");
      D "background-color" (ThemeProp "modalBg");
      D "color" (ThemeProp "text");
      D "display" (Lit "flex");
      D "flex-direction" (Lit "column");
      D "justify-content" (Lit "center");
      D "align-items" (Lit "center");
      D "position" (Lit "relative");
      D "border-radius" (Lit "2px");
      D "font-family" (Lit "'Menlo', monospace") ].

Definition SignUpHeader : Styled :=
  styled_tag "h3"
    [ D "font-size" (Lit "2rem");
      D "margin-bottom" (Lit "0") ].

Definition SignUpText : Styled :=
  styled_tag "p"
    [ D "font-size" (Lit "1rem");
      D "max-width" (Lit "70%");
      D "text-align" (Lit "center") ].

Definition CloseModalButton : Styled :=
  styled_tag "button"
    [ D "cursor" (Lit "pointer");
      D "background" (Lit "none");
      D "border" (Lit "none");
      D "position" (Lit "absolute");
      D "right" (Lit "40px");
      D "top" (Lit "40px");
      D "width" (Lit "24px");
      D "height" (Lit "24px");
      D "padding" (Lit "0") ].

(** The two imported image resources, opaque handles. *)
Inductive Asset : Type := SignUp | CloseIcon.

(** *** Props and the spring target *)

(** What the parent passes.  A prop the caller leaves out reads as
    [JUndefined]. *)
Record Props : Type := {
  showModal : JsValue;
  setShowModal : JsValue
}.

(** The object handed to [useSpring]. *)
Record SpringTarget : Type := {
  opacity : Z;
  transform : string
}.

(** What [useSpring] returns: animated values that move towards
    [spring_to].  How they move is react-spring's business; the
    component only chooses where to. *)
Record AnimatedStyle : Type := {
  spring_to : SpringTarget
}.

Definition useSpring (target : SpringTarget) : AnimatedStyle :=
  {| spring_to := target |}.

Definition animation (props : Props) : AnimatedStyle :=
  useSpring
    {| opacity := if to_boolean (showModal props) then 1 else 0;
       transform := if to_boolean (showModal props)
                    then "translateY(0)" else "translateY(-200%)" |}.

(** Reading a [translateY(...)] transform: the vertical offset. *)
Inductive Length : Type :=
| Len_zero
| Len_px (z : Z)
| Len_percent (z : Z).

Definition parse_int (s : string) : option Z :=
  match s with
  | String "-" r => option_map (fun n => - Z.of_N n)%Z (Str.parse_nat r)
  | _ => option_map Z.of_N (Str.parse_nat s)
  end.

Definition parse_length (s : string) : option Length :=
  if String.eqb s "0" then Some Len_zero
  else match Str.strip_suffix "%" s with
       | Some n => option_map Len_percent (parse_int n)
       | None =>
           match Str.strip_suffix "px" s with
           | Some n => option_map Len_px (parse_int n)
           | None => None
           end
       end.

Definition strip_prefix (pre s : string) : option string :=
  if String.prefix pre s
  then Some (String.substring (String.length pre)
               (String.length s - String.length pre) s)
  else None.

Definition translateY (t : string) : option Length :=
  match strip_prefix "translateY(" t with
  | Some r =>
      match Str.strip_suffix ")" r with
      | Some a => parse_length a
      | None => None
      end
  | None => None
  end.

(** *** The world the component runs in *)

Inductive JsError : Type :=
| TypeError (msg : string)
| Raised (v : JsValue).

Inductive Completion (A : Type) : Type :=
| Normal (a : A)
| Throw (e : JsError).
Arguments Normal {A} a.
Arguments Throw {A} e.

Section Runtime.

(** State owned by the parent view (the visibility flag lives here). *)
Context {W : Type}.

(** Everything a callback can reach: the theme object shared through
    the provider, and the parent's state. *)
Record Store : Type := {
  theme : Theme;
  parent : W
}.

Definition Call : Type := (FunId * list JsValue)%type.

(** [calls] records every function invocation, oldest first. *)
Record World : Type := {
  store : Store;
  calls : list Call
}.

(** What each callable value does when invoked; supplied by the
    caller. *)
Variable funs : FunId -> list JsValue -> Store -> Completion JsValue * Store.

Definition JS (A : Type) : Type := World -> Completion A * World.

Definition ret {A} (a : A) : JS A := fun w => (Normal a, w).

Definition bind {A B} (m : JS A) (k : A -> JS B) : JS B :=
  fun w =>
    match m w with
    | (Normal a, w') => k a w'
    | (Throw e, w') => (Throw e, w')
    end.

Definition throw {A} (e : JsError) : JS A := fun w => (Throw e, w).

Notation "'let*' x ':=' m 'in' k" := (bind m (fun x => k))
  (at level 10, x name, m at level 100, k at level 200).

(** [props.theme[k]] *)
Definition get_theme_prop (k : string) : JS (option string) :=
  fun w => (Normal (theme (store w) !! k), w).

Definition callable (v : JsValue) : bool :=
  match v with
  | JFun _ => true
  | _ => false
  end.

(** [callee(args)]; [name] is how the source spells the callee.
    Calling a value that is not a function throws. *)
Definition call (name : string) (callee : JsValue) (args : list JsValue)
  : JS JsValue :=
  match callee with
  | JFun f =>
      fun w =>
        let r := funs f args (store w) in
        (fst r, {| store := snd r; calls := calls w ++ [(f, args)] |})
  | _ => throw (TypeError (name ++ " is not a function"))
  end.

(** *** Serialising a template while the page runs *)

Definition interpM (i : Interp) : JS string :=
  match i with
  | Lit s => ret s
  | ThemeProp k => let* v := get_theme_prop k in ret (default "" v)
  end.

Fixpoint declsM (ds : list TDecl) : JS (list Decl) :=
  match ds with
  | [] => ret []
  | (p, i) :: rest =>
      let* v := interpM i in
      let* vs := declsM rest in
      ret ((p, v) :: vs)
  end.

Fixpoint serializeM (rs : list Rule) : JS Sheet :=
  match rs with
  | [] => ret {| top := []; nested := [] |}
  | D p i :: rest =>
      let* v := interpM i in
      let* sh := serializeM rest in
      ret {| top := (p, v) :: top sh; nested := nested sh |}
  | Nested sel body :: rest =>
      let* b := declsM body in
      let* sh := serializeM rest in
      ret {| top := top sh; nested := (sel, b) :: nested sh |}
  end.

(** The class Emotion generates for a component on render. *)
Definition class_of (c : Styled) : JS Sheet := serializeM (styles c).

(** *** The element tree *)

Inductive Node : Type :=
| Text (s : string)
| Img (src : Asset) (alt : string)
| Elem (c : Styled) (style : option AnimatedStyle)
    (onClick : option (JS JsValue)) (children : list Node).

Definition SignUpModal (props : Props) : Node :=
  let animation := animation props in
  Elem ModalWrapper (Some animation) None
    [ Img SignUp "Sign Up!";
      Elem SignUpHeader None None [Text "Sign Up!"];
      Elem SignUpText None None
        [Text "Sign up today to get access to cool things!"];
      Elem PrimaryButton None None [Text "Submit"];
      Elem CloseModalButton None
        (Some (call "props.setShowModal" (setShowModal props) [JBool false]))
        [Img CloseIcon "Close"] ].

Definition children_of (n : Node) : list Node :=
  match n with
  | Elem _ _ _ cs => cs
  | _ => []
  end.

Definition style_of (n : Node) : option AnimatedStyle :=
  match n with
  | Elem _ s _ _ => s
  | _ => None
  end.

Definition component_of (n : Node) : option Styled :=
  match n with
  | Elem c _ _ _ => Some c
  | _ => None
  end.

(** *** Events *)

(** A click on an element runs its [onClick] listener, if it has
    one. *)
Definition click (n : Node) : JS JsValue :=
  match n with
  | Elem _ _ (Some h) _ => h
  | _ => ret JUndefined
  end.

Definition is_close_control (n : Node) : bool :=
  match n with
  | Elem c _ _ [Img CloseIcon _] => String.eqb (base_tag c) "button"
  | _ => false
  end.

(** The close control of a rendered modal. *)
Definition close_control (modal : Node) : option Node :=
  List.find is_close_control (children_of modal).

(** One activation of the close control of the modal rendered from
    [props]. *)
Definition activate_close (props : Props) : JS JsValue :=
  match close_control (SignUpModal props) with
  | Some n => click n
  | None => ret JUndefined
  end.

(** [n] activations one after the other.  Each is its own event
    dispatch: an exception in one does not prevent the next. *)
Fixpoint activate_close_n (n : nat) (props : Props) (w : World) : World :=
  match n with
  | O => w
  | S k => activate_close_n k props (snd (activate_close props w))
  end.

(** *** One render of the modal *)

Record Painted : Type := {
  target : AnimatedStyle;
  surface : Sheet;
  tree : Node
}.

Definition render (props : Props) : JS Painted :=
  let t := SignUpModal props in
  let* sh := class_of ModalWrapper in
  ret {| target := animation props; surface := sh; tree := t |}.

End Runtime.

Arguments Store : clear implicits.
Arguments World : clear implicits.
Arguments Node : clear implicits.
Arguments Painted : clear implicits.

End Modals.

(** ** Colour roles

    The roles the documentation gives to the button colours, read as
    decidable predicates on declared values. *)

Module Roles.
Import Css.

Definition color_of (v : option string) : option Rgba :=
  match v with
  | Some s => named_color s
  | None => None
  end.

(** Luma in thousandths of a channel step (Rec. 601 weights). *)
Definition luma (c : Rgba) : Z :=
  (299 * red c + 587 * green c + 114 * blue c)%Z.

Definition is_light (v : option string) : bool :=
  match color_of v with
  | Some c => (0 <? alpha c)%Z && (128000 <=? luma c)%Z
  | None => false
  end.

Definition is_dark (v : option string) : bool :=
  match color_of v with
  | Some c => (0 <? alpha c)%Z && (luma c <? 128000)%Z
  | None => false
  end.

(** A background that paints something. *)
Definition is_filled (v : option string) : bool :=
  match color_of v with
  | Some c => (0 <? alpha c)%Z
  | None => false
  end.

Definition is_transparent (v : option string) : bool :=
  match color_of v with
  | Some c => (alpha c =? 0)%Z
  | None => false
  end.

(** A visible border line. *)
Definition is_outlined (theme : Theme) (c : Styled) (st : UiState) : bool :=
  match computed theme c st "border-style",
        computed theme c st "border-width" with
  | Some s, Some w =>
      negb (String.eqb s "none") && negb (String.eqb s "hidden")
      && negb (String.eqb w "0")
  | _, _ => false
  end.

(** A component answers hover with an animated colour change when
    hovering changes both its background and its text colour and both
    changes run through a transition of the given duration and
    easing. *)
Definition animates (theme : Theme) (c : Styled) (st : UiState)
  (p : string) (ms : N) (easing : string) : bool :=
  match transition_for theme c st p with
  | Some t => (t_duration_ms t =? ms)%N && String.eqb (t_timing t) easing
  | None => false
  end.

Definition changes_on_hover (theme : Theme) (c : Styled) (p : string) : bool :=
  match computed theme c at_rest p, computed theme c on_hover p with
  | Some a, Some b => negb (String.eqb a b)
  | None, None => false
  | _, _ => true
  end.

Definition hover_transition (theme : Theme) (c : Styled)
  (ms : N) (easing : string) : bool :=
  forallb
    (fun p =>
       changes_on_hover theme c p
       && animates theme c at_rest p ms easing
       && animates theme c on_hover p ms easing)
    ["background-color"; "color"].




End Roles.

(** ** A parent view and two themes for the examples

    The lesson's [App] keeps the flag with [useState(false)] and passes
    the flag and its setter to the modal; its theming step lists a light
    and a dark theme. *)

Module App.
Import Css Modals.

Definition themeLight : Theme :=
  list_to_map
    [ ("text", "#000"); ("background", "#fff"); ("modalBg", "#fff");
      ("buttonText", "#000"); ("buttonTextHover", "#fff");
      ("buttonBorder", "#000"); ("buttonBg", "rgba(0, 0, 0, 0)");
      ("buttonBgHover", "rgba(0, 0, 0, 1)") ].

Definition themeDark : Theme :=
  list_to_map
    [ ("text", "#fff"); ("background", "#121212"); ("modalBg", "#202023");
      ("buttonText", "#fff"); ("buttonTextHover", "#000");
      ("buttonBorder", "#fff"); ("buttonBg", "rgba(255, 255, 255, 0)");
      ("buttonBgHover", "rgba(255, 255, 255, 1)") ].

(** Function 0 is the state setter: it stores its first argument as
    the flag.  Every other function does nothing. *)
Definition setShowModal_id : FunId := 0%nat.

Definition funs (f : FunId) (args : list JsValue) (s : Store JsValue)
  : Completion JsValue * Store JsValue :=
  match f with
  | O => (Normal JUndefined,
          {| theme := theme s; parent := List.hd JUndefined args |})
  | S _ => (Normal JUndefined, s)
  end.

Definition world0 (flag : bool) : World JsValue :=
  {| store := {| theme := themeLight; parent := JBool flag |};
     calls := [] |}.

Definition props_of (w : World JsValue) : Props :=
  {| showModal := parent (store w); setShowModal := JFun setShowModal_id |}.

End App.

(** ** Clicks inside the rendered tree *)

Module Dom.
Import Css Buttons Modals.

Section Dispatch.
Context {W : Type}.

(** The nodes from the root down to the target of a click.  A path
    lists child positions; a position that does not exist has no
    target. *)
Fixpoint nodes_to (n : Node W) (path : list nat) : option (list (Node W)) :=
  match path with
  | [] => Some [n]
  | i :: rest =>
      match nth_error (children_of n) i with
      | Some c => option_map (cons n) (nodes_to c rest)
      | None => None
      end
  end.

Definition listener_of (n : Node W) : option (@JS W JsValue) :=
  match n with
  | Elem _ _ h _ => h
  | _ => None
  end.

Fixpoint listeners (ns : list (Node W)) : list (@JS W JsValue) :=
  match ns with
  | [] => []
  | n :: rest =>
      match listener_of n with
      | Some h => h :: listeners rest
      | None => listeners rest
      end
  end.

(** A click bubbles: the [onClick] listeners it reaches are those of the
    target and of its ancestors, innermost first. *)
Definition listeners_reached (root : Node W) (path : list nat)
  : option (list (@JS W JsValue)) :=
  option_map (fun ns => listeners (List.rev ns)) (nodes_to root path).

(** An animated style only moves an element that react-spring
    hosts. *)
Definition style_hosted (n : Node W) : bool :=
  match n with
  | Elem c (Some _) _ _ => animated c
  | _ => true
  end.

End Dispatch.

End Dom.

(** ** The styled components of the two files *)

Module Sheets.
Import Css Buttons Modals.

Definition components : list Styled :=
  [ Button; PrimaryButton; SecondaryButton;
    ModalWrapper; SignUpHeader; SignUpText; CloseModalButton ].


(** The longhand declarations behind [computed]. *)
Definition declared (theme : Theme) (c : Styled) (st : UiState) : list Decl :=
  longhands (applicable st (serialize theme (styles c))).

End Sheets.

(** * Properties *)

Import Css Buttons Modals Roles.
Import Dom Sheets.

(** ** The cascade *)

(** Declarations that come later override earlier ones. *)
Lemma last_wins_app (p : string) (xs ys : list Decl) :
  last_wins p (xs ++ ys)
  = match last_wins p ys with
    | Some v => Some v
    | None => last_wins p xs
    end.
Proof.
  induction xs as [|[q v] xs IH]; simpl.
  - destruct (last_wins p ys); reflexivity.
  - rewrite IH. destruct (last_wins p ys); reflexivity.
Qed.

Lemma last_wins_snoc (p v : string) (xs : list Decl) :
  last_wins p (xs ++ [(p, v)]) = Some v.
Proof. rewrite last_wins_app. simpl. rewrite String.eqb_refl. reflexivity. Qed.

(** The winning value is one that was declared for the property. *)
Lemma last_wins_declared (p v : string) (ds : list Decl) :
  last_wins p ds = Some v -> List.In (p, v) ds.
Proof.
  induction ds as [|[q u] ds IH]; simpl; [discriminate|].
  destruct (last_wins p ds) as [w|].
  - intros H. right. apply IH. exact H.
  - destruct (String.eqb q p) eqn:E; [|discriminate].
    intros H. injection H as ->. apply String.eqb_eq in E. subst q.
    left. reflexivity.
Qed.

(** ** The runtime reads the theme and never writes it *)

Section RuntimeFacts.
Context {W : Type}.
Variable funs : FunId -> list JsValue -> Store W -> Completion JsValue * Store W.

Lemma interpM_pure (i : Interp) (w : World W) :
  interpM i w = (Normal (eval_interp (theme (store w)) i), w).
Proof. destruct i; reflexivity. Qed.

Lemma declsM_pure (ds : list TDecl) (w : World W) :
  declsM ds w = (Normal (List.map (eval_decl (theme (store w))) ds), w).
Proof.
  induction ds as [|[p i] ds IH]; simpl.
  - reflexivity.
  - unfold bind. rewrite interpM_pure, IH. reflexivity.
Qed.

Lemma serializeM_pure (rs : list Rule) (w : World W) :
  serializeM rs w = (Normal (serialize (theme (store w)) rs), w).
Proof.
  induction rs as [|[p i|sel body] rs IH]; simpl.
  - reflexivity.
  - unfold bind. rewrite interpM_pure, IH. reflexivity.
  - unfold bind. rewrite declsM_pure, IH. reflexivity.
Qed.

Lemma class_of_pure (c : Styled) (w : World W) :
  class_of c w = (Normal (serialize (theme (store w)) (styles c)), w).
Proof. apply serializeM_pure. Qed.

Lemma render_pure (props : Props) (w : World W) :
  render funs props w =
  (Normal {| target := animation props;
             surface := serialize (theme (store w)) (styles ModalWrapper);
             tree := SignUpModal funs props |}, w).
Proof. unfold render, bind. rewrite class_of_pure. reflexivity. Qed.

(** The listener of the close control is the arrow function of the
    source. *)
Lemma activate_close_eq (props : Props) :
  activate_close funs props =
  call funs "props.setShowModal" (setShowModal props) [JBool false].
Proof. reflexivity. Qed.

Lemma call_function (name : string) (f : FunId) (args : list JsValue)
  (w : World W) :
  call funs name (JFun f) args w =
  (fst (funs f args (store w)),
   {| store := snd (funs f args (store w));
      calls := calls w ++ [(f, args)] |}).
Proof. reflexivity. Qed.

Lemma call_not_callable (name : string) (v : JsValue) (args : list JsValue)
  (w : World W) :
  callable v = false ->
  call funs name v args w = (Throw (TypeError (name ++ " is not a function")), w).
Proof. destruct v; simpl; intros H; try reflexivity; discriminate. Qed.

Lemma activate_close_n_function (f : FunId) (props : Props) :
  setShowModal props = JFun f ->
  forall (n : nat) (w : World W),
    calls (activate_close_n funs n props w)
    = calls w ++ List.repeat (f, [JBool false]) n
    /\ store (activate_close_n funs n props w)
       = Nat.iter n (fun s => snd (funs f [JBool false] s)) (store w).
Proof.
  intros Hf n. induction n as [|n IH]; intros w.
  - simpl. rewrite app_nil_r. split; reflexivity.
  - cbn [activate_close_n]. rewrite activate_close_eq, Hf, call_function.
    destruct (IH {| store := snd (funs f [JBool false] (store w));
                    calls := calls w ++ [(f, [JBool false])] |}) as [Hc Hs].
    cbn [snd]. rewrite Hc, Hs. cbn [calls store].
    rewrite <- app_assoc, Nat.iter_succ_r. split; reflexivity.
Qed.

End RuntimeFacts.

(** ** The animation target *)

(** C1: for each boolean value of the flag, the target handed to the
    spring is opacity 1 with [translateY(0)] (offset zero) when the flag
    is true, and opacity 0 with [translateY(-200%)] (minus 200 percent of
    the modal's own height) when it is false; the rendered wrapper
    carries exactly that target as its style. *)
Theorem animation_target_by_flag {W : Type}
  (funs : FunId -> list JsValue -> Store W -> Completion JsValue * Store W)
  (b : bool) (cb : JsValue) :
  spring_to (animation {| showModal := JBool b; setShowModal := cb |})
  = (if b then {| opacity := 1; transform := "translateY(0)" |}
     else {| opacity := 0; transform := "translateY(-200%)" |})
  /\ translateY
       (transform
          (spring_to (animation {| showModal := JBool b; setShowModal := cb |})))
     = Some (if b then Len_zero else Len_percent (-200))
  /\ style_of (SignUpModal funs {| showModal := JBool b; setShowModal := cb |})
     = Some (animation {| showModal := JBool b; setShowModal := cb |}).
Proof. destruct b; repeat split; reflexivity. Qed.

(** The opacity target is 0 or 1 for every value of the flag, boolean or
    not. *)
Lemma animation_opacity_target_bounds (props : Props) :
  (0 <= opacity (spring_to (animation props)) <= 1)%Z.
Proof. unfold animation, useSpring; cbn. destruct (to_boolean _); lia. Qed.

(** ** The close control *)

(** C2: when a close callback is supplied, one activation of the close
    control invokes it exactly once, with the single argument [false];
    [n] activations invoke it [n] times, each with [false]; the state
    after an activation is exactly what the callback left, so the modal
    changes nothing by itself, and rendering changes nothing at all. *)
Theorem close_invokes_callback_once {W : Type}
  (funs : FunId -> list JsValue -> Store W -> Completion JsValue * Store W)
  (props : Props) (f : FunId) (w : World W) :
  setShowModal props = JFun f ->
  activate_close funs props w
  = (fst (funs f [JBool false] (store w)),
     {| store := snd (funs f [JBool false] (store w));
        calls := calls w ++ [(f, [JBool false])] |})
  /\ (forall n : nat,
        calls (activate_close_n funs n props w)
        = calls w ++ List.repeat (f, [JBool false]) n
        /\ store (activate_close_n funs n props w)
           = Nat.iter n (fun s => snd (funs f [JBool false] s)) (store w))
  /\ snd (render funs props w) = w.
Proof.
  intros Hf. split; [|split].
  - rewrite activate_close_eq, Hf. apply call_function.
  - intros n. apply activate_close_n_function. exact Hf.
  - rewrite render_pure. reflexivity.
Qed.

Lemma close_invokes_callback_once_witness :
  setShowModal (App.props_of (App.world0 true)) = JFun App.setShowModal_id
  /\ (activate_close App.funs (App.props_of (App.world0 true)) (App.world0 true)
      = (fst (App.funs App.setShowModal_id [JBool false]
                (store (App.world0 true))),
         {| store := snd (App.funs App.setShowModal_id [JBool false]
                            (store (App.world0 true)));
            calls := calls (App.world0 true)
                     ++ [(App.setShowModal_id, [JBool false])] |})
      /\ (forall n : nat,
            calls (activate_close_n App.funs n
                     (App.props_of (App.world0 true)) (App.world0 true))
            = calls (App.world0 true)
              ++ List.repeat (App.setShowModal_id, [JBool false]) n
            /\ store (activate_close_n App.funs n
                        (App.props_of (App.world0 true)) (App.world0 true))
               = Nat.iter n
                   (fun s => snd (App.funs App.setShowModal_id [JBool false] s))
                   (store (App.world0 true)))
      /\ snd (render App.funs (App.props_of (App.world0 true)) (App.world0 true))
         = App.world0 true).
Proof.
  split; [reflexivity|].
  apply (close_invokes_callback_once App.funs
           (App.props_of (App.world0 true)) App.setShowModal_id
           (App.world0 true)).
  reflexivity.
Defined.

(** With the lesson's parent, closing an open modal sets the flag to
    [false] and the next render targets the hidden position. *)
Example close_then_render_hidden :
  let w' := snd (activate_close App.funs (App.props_of (App.world0 true))
                   (App.world0 true)) in
  parent (store w') = JBool false
  /\ calls w' = [(App.setShowModal_id, [JBool false])]
  /\ spring_to (animation (App.props_of w'))
     = {| opacity := 0; transform := "translateY(-200%)" |}.
Proof. repeat split; reflexivity. Qed.

(** C3, as stated, fails: with the callback left out, an activation of
    the close control does not complete normally. *)
Lemma omitted_callback_not_tolerated :
  ~ (forall (props : Props) (w : World JsValue),
       setShowModal props = JUndefined ->
       exists v, fst (activate_close App.funs props w) = Normal v).
Proof.
  intros H.
  destruct (H {| showModal := JBool true; setShowModal := JUndefined |}
              (App.world0 true) eq_refl) as [v Hv].
  discriminate Hv.
Qed.

(** C3 (amended): when the caller leaves the close callback out, the
    modal still renders, and an activation of the close control invokes
    nothing and changes no state, but it ends in a [TypeError]: the
    listener calls [props.setShowModal] without testing it. *)
Theorem close_without_callback_throws {W : Type}
  (funs : FunId -> list JsValue -> Store W -> Completion JsValue * Store W)
  (props : Props) (w : World W) :
  setShowModal props = JUndefined ->
  activate_close funs props w
  = (Throw (TypeError "props.setShowModal is not a function"), w)
  /\ (forall n : nat, activate_close_n funs n props w = w)
  /\ fst (render funs props w)
     = Normal {| target := animation props;
                 surface := serialize (theme (store w)) (styles ModalWrapper);
                 tree := SignUpModal funs props |}.
Proof.
  intros Hu.
  assert (Hc : activate_close funs props w
               = (Throw (TypeError "props.setShowModal is not a function"), w)).
  { rewrite activate_close_eq, Hu. reflexivity. }
  split; [exact Hc|split].
  - intros n. induction n as [|n IH]; [reflexivity|].
    cbn [activate_close_n]. rewrite Hc. exact IH.
  - rewrite render_pure. reflexivity.
Qed.

Lemma close_without_callback_throws_witness :
  setShowModal {| showModal := JBool true; setShowModal := JUndefined |}
  = JUndefined
  /\ (activate_close App.funs
        {| showModal := JBool true; setShowModal := JUndefined |}
        (App.world0 true)
      = (Throw (TypeError "props.setShowModal is not a function"),
         App.world0 true)
      /\ (forall n : nat,
            activate_close_n App.funs n
              {| showModal := JBool true; setShowModal := JUndefined |}
              (App.world0 true)
            = App.world0 true)
      /\ fst (render App.funs
                {| showModal := JBool true; setShowModal := JUndefined |}
                (App.world0 true))
         = Normal
             {| target :=
                  animation
                    {| showModal := JBool true; setShowModal := JUndefined |};
                surface :=
                  serialize (theme (store (App.world0 true)))
                    (styles ModalWrapper);
                tree :=
                  SignUpModal App.funs
                    {| showModal := JBool true; setShowModal := JUndefined |} |}).
Proof.
  split; [reflexivity|].
  apply (close_without_callback_throws App.funs
           {| showModal := JBool true; setShowModal := JUndefined |}
           (App.world0 true)).
  reflexivity.
Defined.

(** ** The button variants *)

(** C5, as stated, fails: the primary variant has no hover transition of
    0.2 seconds with linear easing (it has none at all). *)
Lemma primary_has_no_hover_transition :
  ~ (forall v : Variant,
       hover_transition App.themeLight (variant_component v) 200 "linear"
       = true).
Proof. intros H. specialize (H Primary). discriminate H. Qed.

(** C5 (amended): only the secondary variant answers hover with a
    transition.  Its background colour (transparent to red) and its text
    colour (black to white) change on hover, each over 0.2 seconds
    (200 ms) with linear easing and no delay.  The primary variant
    declares no transition and no hover rule: hovering changes none of
    its declared values. *)
Theorem secondary_hover_transition (theme : Theme) :
  hover_transition theme SecondaryButton 200 "linear" = true
  /\ (forall st : UiState,
        transitions theme SecondaryButton st
        = [ {| t_property := "background-color"; t_duration_ms := 200;
               t_timing := "linear"; t_delay_ms := 0 |};
            {| t_property := "color"; t_duration_ms := 200;
               t_timing := "linear"; t_delay_ms := 0 |} ])
  /\ (forall st : UiState, transitions theme PrimaryButton st = [])
  /\ (forall p : string,
        computed theme PrimaryButton on_hover p
        = computed theme PrimaryButton at_rest p).
Proof.
  split; [reflexivity|]. split; [|split].
  - intros [[|]]; reflexivity.
  - intros [[|]]; reflexivity.
  - intros p. reflexivity.
Qed.

(** C6: the variant fixes the colour roles, whatever the theme.  Primary:
    a filled (red) background with light (white) text.  Secondary: a
    transparent background with a visible (1px solid black) outline and
    dark (black) text; on hover the colours invert to a filled (red)
    background with light (white) text. *)
Theorem variant_color_roles (theme : Theme) :
  (computed theme (variant_component Primary) at_rest "background-color"
   = Some "red"
   /\ is_filled
        (computed theme (variant_component Primary) at_rest "background-color")
      = true
   /\ computed theme (variant_component Primary) at_rest "color" = Some "white"
   /\ is_light (computed theme (variant_component Primary) at_rest "color")
      = true)
  /\ (computed theme (variant_component Secondary) at_rest "background-color"
      = Some "transparent"
      /\ is_transparent
           (computed theme (variant_component Secondary) at_rest
              "background-color")
         = true
      /\ is_outlined theme (variant_component Secondary) at_rest = true
      /\ List.map (computed theme (variant_component Secondary) at_rest)
           ["border-width"; "border-style"; "border-color"]
         = [Some "1px"; Some "solid"; Some "black"]
      /\ computed theme (variant_component Secondary) at_rest "color"
         = Some "black"
      /\ is_dark (computed theme (variant_component Secondary) at_rest "color")
         = true)
  /\ (computed theme (variant_component Secondary) on_hover "background-color"
      = Some "red"
      /\ is_filled
           (computed theme (variant_component Secondary) on_hover
              "background-color")
         = true
      /\ computed theme (variant_component Secondary) on_hover "color"
         = Some "white"
      /\ is_light (computed theme (variant_component Secondary) on_hover "color")
         = true
      /\ is_outlined theme (variant_component Secondary) on_hover = true).
Proof. repeat split; reflexivity. Qed.

(** C9: the secondary button's template declares [color: white] and
    then [color: black]; the later declaration wins, so its text colour
    at rest is black, not white, for every theme. *)
Theorem secondary_rest_color_black (theme : Theme) :
  List.filter (fun d => String.eqb (fst d) "color")
    (top (serialize theme (styles SecondaryButton)))
  = [("color", "white"); ("color", "black")]
  /\ computed theme SecondaryButton at_rest "color" = Some "black"
  /\ computed theme SecondaryButton at_rest "color" <> Some "white".
Proof. split; [reflexivity | split; [reflexivity | discriminate]]. Qed.

(** ** The theme *)




(** A theme entry that is CSS text rather than a colour value is not a
    theme the wrapper can be serialised against. *)
Example splice_ok_rejects_css_text :
  splice_ok (<[ "text" := "#000; width: 1px; background-color: red" ]>
               App.themeLight) ModalWrapper = false
  /\ splice_ok (<[ "modalBg" := "red; &:hover { width: 1px; }" ]>
                  App.themeLight) ModalWrapper = false
  /\ splice_ok App.themeLight ModalWrapper = true
  /\ splice_ok App.themeDark ModalWrapper = true
  /\ splice_ok (∅ : Theme) ModalWrapper = true.
Proof. repeat split; vm_compute; reflexivity. Qed.

(** Under the light theme the modal surface is [#fff] with [#000] text;
    under the dark theme it is [#202023] with [#fff] text. *)
Example modal_colors_light_dark :
  List.map (computed App.themeLight ModalWrapper at_rest)
    ["background-color"; "color"]
  = [Some "#fff"; Some "#000"]
  /\ List.map (computed App.themeDark ModalWrapper at_rest)
       ["background-color"; "color"]
     = [Some "#202023"; Some "#fff"].
Proof. split; vm_compute; reflexivity. Qed.

(** ** Statelessness *)

(** C8: a render is determined by the flag and the theme.  Two renders
    that agree on the flag and on the theme complete normally with the
    same animation target and the same surface sheet, whatever the close
    callback, the callbacks' behaviour, the parent's state and the calls
    made so far; and a render leaves the world as it found it. *)
Theorem render_determined_by_flag_and_theme {W : Type}
  (funs1 funs2 : FunId -> list JsValue -> Store W
                 -> Completion JsValue * Store W)
  (p1 p2 : Props) (w1 w2 : World W) :
  showModal p1 = showModal p2 ->
  theme (store w1) = theme (store w2) ->
  exists a b : Painted W,
    render funs1 p1 w1 = (Normal a, w1)
    /\ render funs2 p2 w2 = (Normal b, w2)
    /\ target a = target b
    /\ surface a = surface b
    /\ target a = animation p1.
Proof.
  intros Hflag Htheme.
  eexists. eexists.
  split; [apply render_pure|]. split; [apply render_pure|].
  cbn [target surface]. unfold animation. rewrite Hflag, Htheme.
  repeat split; reflexivity.
Qed.

Lemma render_determined_by_flag_and_theme_witness :
  showModal (App.props_of (App.world0 true))
  = showModal {| showModal := JBool true; setShowModal := JUndefined |}
  /\ theme (store (App.world0 true))
     = theme (store {| store := {| theme := App.themeLight;
                                   parent := JNum 7 |};
                       calls := [(3%nat, [])] |})
  /\ exists a b : Painted JsValue,
       render App.funs (App.props_of (App.world0 true)) (App.world0 true)
       = (Normal a, App.world0 true)
       /\ render (fun _ _ s => (Throw (Raised JNull), s))
            {| showModal := JBool true; setShowModal := JUndefined |}
            {| store := {| theme := App.themeLight; parent := JNum 7 |};
               calls := [(3%nat, [])] |}
          = (Normal b,
             {| store := {| theme := App.themeLight; parent := JNum 7 |};
                calls := [(3%nat, [])] |})
       /\ target a = target b
       /\ surface a = surface b
       /\ target a = animation (App.props_of (App.world0 true)).
Proof.
  split; [reflexivity|]. split; [reflexivity|].
  apply (render_determined_by_flag_and_theme App.funs
           (fun _ _ s => (Throw (Raised JNull), s))
           (App.props_of (App.world0 true))
           {| showModal := JBool true; setShowModal := JUndefined |}
           (App.world0 true)
           {| store := {| theme := App.themeLight; parent := JNum 7 |};
              calls := [(3%nat, [])] |});
    reflexivity.
Defined.

(** ** The children of the modal *)

(** C10: whatever the flag, the modal renders the same five children in
    the same order: the sign-up illustration, the heading "Sign Up!",
    the body text, a primary button labelled "Submit", and the close
    control with its icon and listener.  The flag reaches the tree only
    through the style of the wrapper. *)
Theorem children_independent_of_flag {W : Type}
  (funs : FunId -> list JsValue -> Store W -> Completion JsValue * Store W)
  (flag1 flag2 cb : JsValue) :
  children_of (SignUpModal funs {| showModal := flag1; setShowModal := cb |})
  = children_of (SignUpModal funs {| showModal := flag2; setShowModal := cb |})
  /\ children_of
       (SignUpModal funs {| showModal := flag1; setShowModal := cb |})
     = [ Img SignUp "Sign Up!";
         Elem SignUpHeader None None [Text "Sign Up!"];
         Elem SignUpText None None
           [Text "Sign up today to get access to cool things!"];
         Elem PrimaryButton None None [Text "Submit"];
         Elem CloseModalButton None
           (Some (call funs "props.setShowModal" cb [JBool false]))
           [Img CloseIcon "Close"] ]
  /\ SignUpModal funs {| showModal := flag1; setShowModal := cb |}
     = Elem ModalWrapper
         (Some (animation {| showModal := flag1; setShowModal := cb |}))
         None
         (children_of
            (SignUpModal funs {| showModal := flag2; setShowModal := cb |})).
Proof. repeat split; reflexivity. Qed.

(** * Further properties of the two files *)

(** ** The flag, read as JavaScript reads it *)

(** X1: whatever value the parent passes as [showModal] (a boolean or
    not, or nothing at all), the two animated values agree: the target is
    either opacity 1 at offset zero, exactly when the value is truthy, or
    opacity 0 at minus 200 percent, exactly when it is falsy.  A flag
    left out hides the modal; a non-empty string, even ["false"], shows
    it. *)
Theorem animation_values_agree (props : Props) :
  (to_boolean (showModal props) = true
   /\ opacity (spring_to (animation props)) = 1%Z
   /\ translateY (transform (spring_to (animation props))) = Some Len_zero)
  \/ (to_boolean (showModal props) = false
      /\ opacity (spring_to (animation props)) = 0%Z
      /\ translateY (transform (spring_to (animation props)))
         = Some (Len_percent (-200))).
Proof.
  unfold animation, useSpring. cbn [spring_to opacity transform].
  destruct (to_boolean (showModal props)); [left | right];
    repeat split; reflexivity.
Qed.

Example animation_of_odd_flags :
  List.map
    (fun v => opacity (spring_to
                         (animation {| showModal := v;
                                       setShowModal := JUndefined |})))
    [JUndefined; JNull; JNum 0; JStr ""; JStr "false"; JNum 2; JObj 0]
  = [0; 0; 0; 0; 1; 1; 1]%Z.
Proof. reflexivity. Qed.

(** ** Anything but a function as the close callback *)

(** X2: when [setShowModal] is any value that is not a function
    ([undefined], [null], a boolean, a number, a string, an object),
    every activation of the close control throws the same [TypeError],
    records no call and leaves the theme and the parent's state as they
    were, however often it is repeated. *)
Theorem close_with_non_function_throws {W : Type}
  (funs : FunId -> list JsValue -> Store W -> Completion JsValue * Store W)
  (props : Props) (w : World W) :
  callable (setShowModal props) = false ->
  activate_close funs props w
  = (Throw (TypeError "props.setShowModal is not a function"), w)
  /\ forall n : nat, activate_close_n funs n props w = w.
Proof.
  intros Hc.
  assert (H1 : activate_close funs props w
               = (Throw (TypeError "props.setShowModal is not a function"), w)).
  { rewrite activate_close_eq. apply (call_not_callable funs). exact Hc. }
  split; [exact H1|].
  intros n. induction n as [|n IH]; [reflexivity|].
  cbn [activate_close_n]. rewrite H1. exact IH.
Qed.

Lemma close_with_non_function_throws_witness :
  callable (setShowModal {| showModal := JBool true; setShowModal := JNull |})
  = false
  /\ (activate_close App.funs
        {| showModal := JBool true; setShowModal := JNull |} (App.world0 true)
      = (Throw (TypeError "props.setShowModal is not a function"),
         App.world0 true)
      /\ forall n : nat,
           activate_close_n App.funs n
             {| showModal := JBool true; setShowModal := JNull |}
             (App.world0 true)
           = App.world0 true).
Proof.
  split; [reflexivity|].
  apply (close_with_non_function_throws App.funs
           {| showModal := JBool true; setShowModal := JNull |}
           (App.world0 true)).
  reflexivity.
Defined.

(** ** Where a click lands *)

Ltac walk_path H :=
  repeat
    (cbn [nodes_to children_of SignUpModal nth_error option_map] in H;
     match type of H with
     | Some _ = Some _ => injection H as H; subst
     | None = Some _ => discriminate H
     | context [nth_error _ ?i] => is_var i; destruct i
     | context [nodes_to _ ?p] => is_var p; destruct p
     end).

(** X3: a click anywhere in the rendered modal reaches a listener only
    on the close control or on the icon inside it, and then exactly one:
    the call [props.setShowModal(false)].  A click on the wrapper, the
    illustration, the heading, the text or the Submit button reaches no
    listener at all. *)
Theorem click_reaches_only_close_listener {W : Type}
  (funs : FunId -> list JsValue -> Store W -> Completion JsValue * Store W)
  (props : Props) (path : list nat) (ns : list (Node W)) :
  nodes_to (SignUpModal funs props) path = Some ns ->
  listeners_reached (SignUpModal funs props) path
  = Some (if existsb (is_close_control (W := W)) ns
          then [call funs "props.setShowModal" (setShowModal props)
                  [JBool false]]
          else []).
Proof.
  intros H. unfold listeners_reached. rewrite H. cbn [option_map]. f_equal.
  walk_path H; reflexivity.
Qed.

Lemma click_reaches_only_close_listener_witness :
  nodes_to (SignUpModal App.funs (App.props_of (App.world0 true))) [4; 0]%nat
  = Some [ SignUpModal App.funs (App.props_of (App.world0 true));
           Elem CloseModalButton None
             (Some (call App.funs "props.setShowModal"
                      (JFun App.setShowModal_id) [JBool false]))
             [Img CloseIcon "Close"];
           Img CloseIcon "Close" ]
  /\ listeners_reached (SignUpModal App.funs (App.props_of (App.world0 true)))
       [4; 0]%nat
     = Some [call App.funs "props.setShowModal"
               (setShowModal (App.props_of (App.world0 true))) [JBool false]].
Proof.
  split; [reflexivity|].
  apply (click_reaches_only_close_listener App.funs
           (App.props_of (App.world0 true)) [4; 0]%nat
           [ SignUpModal App.funs (App.props_of (App.world0 true));
             Elem CloseModalButton None
               (Some (call App.funs "props.setShowModal"
                        (JFun App.setShowModal_id) [JBool false]))
               [Img CloseIcon "Close"];
             Img CloseIcon "Close" ]).
  reflexivity.
Defined.

(** The Submit button and its label reach nothing. *)
Example click_on_submit_reaches_nothing :
  listeners_reached (SignUpModal App.funs (App.props_of (App.world0 true)))
    [3]%nat = Some []
  /\ listeners_reached (SignUpModal App.funs (App.props_of (App.world0 true)))
       [3; 0]%nat = Some []
  /\ listeners_reached (SignUpModal App.funs (App.props_of (App.world0 true)))
       [] = Some [].
Proof. repeat split; reflexivity. Qed.

(** X4: in every render, an animated style sits only on an element that
    react-spring hosts: every node on every path of the tree is either
    without a style or built on an animated host. *)
Theorem styles_only_on_animated_hosts {W : Type}
  (funs : FunId -> list JsValue -> Store W -> Completion JsValue * Store W)
  (props : Props) (path : list nat) (ns : list (Node W)) :
  nodes_to (SignUpModal funs props) path = Some ns ->
  forallb (style_hosted (W := W)) ns = true.
Proof. intros H. walk_path H; reflexivity. Qed.

Lemma styles_only_on_animated_hosts_witness :
  nodes_to (SignUpModal App.funs (App.props_of (App.world0 false))) [1; 0]%nat
  = Some [ SignUpModal App.funs (App.props_of (App.world0 false));
           Elem SignUpHeader None None [Text "Sign Up!"];
           Text "Sign Up!" ]
  /\ forallb (style_hosted (W := JsValue))
       [ SignUpModal App.funs (App.props_of (App.world0 false));
         Elem SignUpHeader None None [Text "Sign Up!"];
         Text "Sign Up!" ]
     = true.
Proof.
  split; [reflexivity|].
  apply (styles_only_on_animated_hosts App.funs
           (App.props_of (App.world0 false)) [1; 0]%nat).
  reflexivity.
Defined.

(** ** Composition of templates *)

Lemma serialize_app (theme : Theme) (a b : list Rule) :
  top (serialize theme (a ++ b))
  = top (serialize theme a) ++ top (serialize theme b)
  /\ nested (serialize theme (a ++ b))
     = nested (serialize theme a) ++ nested (serialize theme b).
Proof.
  induction a as [|[p i|sel body] a [IHt IHn]]; simpl.
  - split; reflexivity.
  - rewrite IHt, IHn. split; reflexivity.
  - rewrite IHt, IHn. split; reflexivity.
Qed.

Lemma longhands_app (xs ys : list Decl) :
  longhands (xs ++ ys) = longhands xs ++ longhands ys.
Proof. unfold longhands. rewrite List.map_app, List.concat_app. reflexivity. Qed.

(** The declarations of an extended component, by origin. *)
Lemma declared_styled_ext (theme : Theme) (base : Styled) (css : list Rule)
  (st : UiState) :
  let pick := fun sh : Sheet =>
    List.concat
      (List.map snd
         (List.filter (fun nb => selector_matches st (fst nb)) (nested sh))) in
  declared theme (styled_ext base css) st
  = longhands (List.filter well_formed (top (serialize theme (styles base))))
    ++ longhands (List.filter well_formed (top (serialize theme css)))
    ++ longhands (List.filter well_formed (pick (serialize theme (styles base))))
    ++ longhands (List.filter well_formed (pick (serialize theme css))).
Proof.
  intros pick. unfold declared, applicable. cbn [styles styled_ext].
  destruct (serialize_app theme (styles base) css) as [Ht Hn].
  rewrite Ht, Hn.
  rewrite !List.filter_app, List.map_app, List.concat_app.
  rewrite !List.filter_app, !longhands_app, <- !app_assoc.
  reflexivity.
Qed.

Lemma last_wins_app_none (p : string) (xs ys : list Decl) :
  last_wins p (xs ++ ys) = None ->
  last_wins p xs = None /\ last_wins p ys = None.
Proof.
  rewrite last_wins_app. destruct (last_wins p ys); [discriminate|].
  intros H. split; [exact H | reflexivity].
Qed.

(** A property that the extending template does not declare keeps the
    value the base gives it. *)
Lemma styled_ext_inherits (theme : Theme) (base : Styled) (css : list Rule)
  (st : UiState) (p : string) :
  computed theme (styled_tag (base_tag base) css) st p = None ->
  computed theme (styled_ext base css) st p = computed theme base st p.
Proof.
  unfold computed. fold (declared theme (styled_ext base css) st).
  rewrite declared_styled_ext. cbv zeta.
  unfold applicable. cbn [styles styled_tag].
  rewrite List.filter_app, longhands_app.
  intros H. apply last_wins_app_none in H. destruct H as [Ht Hn].
  rewrite List.filter_app, longhands_app.
  rewrite !last_wins_app, Ht, Hn. clear Ht Hn.
  destruct (last_wins p _); reflexivity.
Qed.

(** X5: whatever the base [Button] declares (padding, font size, corner
    radius, minimum width, cursor, font family) reaches both variants
    unchanged, under every theme and in both pointer states: neither
    variant's own template nor the hover rule overrides a base
    declaration. *)
Theorem variants_keep_base_declarations (theme : Theme) (v : Variant)
  (st : UiState) (p value : string) :
  computed theme Button at_rest p = Some value ->
  computed theme (variant_component v) st p = Some value.
Proof.
  intros H.
  assert (Hin : List.In (p, value) (declared theme Button at_rest))
    by (apply last_wins_declared; exact H).
  assert (Hst : computed theme Button st p = Some value)
    by (destruct st as [[|]]; exact H).
  rewrite <- Hst.
  destruct v; unfold variant_component, PrimaryButton, SecondaryButton;
    apply styled_ext_inherits;
    cbn in Hin;
    repeat (destruct Hin as [Hin|Hin];
            [injection Hin as <- <-; destruct st as [[|]]; reflexivity|]);
    contradiction.
Qed.

Lemma variants_keep_base_declarations_witness :
  computed App.themeDark Button at_rest "padding" = Some "12px 24px"
  /\ computed App.themeDark (variant_component Secondary) on_hover "padding"
     = Some "12px 24px".
Proof.
  split; [reflexivity|].
  apply (variants_keep_base_declarations App.themeDark Secondary on_hover
           "padding" "12px 24px").
  reflexivity.
Defined.

(** ** What the theme and the pointer can change *)










(** A template without a theme slot can be serialised against every
    theme. *)
Lemma splice_ok_without_slots (theme : Theme) (c : Styled) :
  List.In c components -> c <> ModalWrapper -> splice_ok theme c = true.
Proof.
  intros Hin Hc. cbn in Hin.
  destruct Hin as [<-|[<-|[<-|[<-|[<-|[<-|[<-|[]]]]]]]];
    try reflexivity.
  exfalso. apply Hc. reflexivity.
Qed.
